(** * Custom TTS provider adapter: a shallow embedding

    Source: [astrbot/core/provider/sources/custom_tts_source.py], class
    [ProviderCustomTTS] with its constructor [__init__] and its two
    coroutines [get_audio] and [test_connection].

    The adapter is effectful Python: it logs, touches the file system,
    draws a random UUID and performs one HTTP exchange.  The embedding
    threads one explicit [world] through a small state-and-exception monad
    [M]; the collaborators the source imports (aiohttp, uuid, the data
    path of the host) are an [env] record. *)

From Stdlib Require Import String Ascii ZArith NArith List Lia Bool.
From stdpp Require Import base option list gmap.
Import ListNotations.

Local Open Scope N_scope.

(** ** Python strings

    A Python [str] is a sequence of Unicode code points.  Literals of the
    source are written as UTF-8 Rocq strings and decoded by [py]. *)

Abbreviation pystr := (list N).

Fixpoint utf8_decode (bs : list N) : pystr :=
  match bs with
  | [] => []
  | b0 :: r0 =>
      if b0 <? 0x80 then b0 :: utf8_decode r0
      else if b0 <? 0xE0 then
        match r0 with
        | b1 :: r1 =>
            N.lor (N.shiftl (N.land b0 0x1F) 6) (N.land b1 0x3F)
              :: utf8_decode r1
        | _ => []
        end
      else if b0 <? 0xF0 then
        match r0 with
        | b1 :: b2 :: r2 =>
            N.lor (N.shiftl (N.land b0 0x0F) 12)
              (N.lor (N.shiftl (N.land b1 0x3F) 6) (N.land b2 0x3F))
              :: utf8_decode r2
        | _ => []
        end
      else
        match r0 with
        | b1 :: b2 :: b3 :: r3 =>
            N.lor (N.shiftl (N.land b0 0x07) 18)
              (N.lor (N.shiftl (N.land b1 0x3F) 12)
                 (N.lor (N.shiftl (N.land b2 0x3F) 6) (N.land b3 0x3F)))
              :: utf8_decode r3
        | _ => []
        end
  end.

Definition of_utf8 (s : string) : pystr :=
  utf8_decode (map N_of_ascii (list_ascii_of_string s)).

(** [py "..."] is the literal, decoded once where it is written. *)
Notation "'py' s" :=
  (ltac:(let v := eval vm_compute in (of_utf8 s) in exact v))
  (at level 1, s at level 0, only parsing).

(** [Py_UNICODE_ISSPACE]: the code points [str.strip()] removes. *)
Definition is_space (c : N) : bool :=
  ((0x09 <=? c) && (c <=? 0x0D)) || ((0x1C <=? c) && (c <=? 0x20))
  || (c =? 0x85) || (c =? 0xA0) || (c =? 0x1680)
  || ((0x2000 <=? c) && (c <=? 0x200A))
  || (c =? 0x2028) || (c =? 0x2029) || (c =? 0x202F) || (c =? 0x205F)
  || (c =? 0x3000).

Fixpoint lstrip (s : pystr) : pystr :=
  match s with
  | c :: r => if is_space c then lstrip r else s
  | [] => []
  end.

Definition rstrip (s : pystr) : pystr := rev (lstrip (rev s)).

(** [text.strip()] *)
Definition strip (s : pystr) : pystr := rstrip (lstrip s).

(** [s.endswith(c)] for a one-character suffix, and [s[:-1]]. *)
Definition endswith (s : pystr) (c : N) : bool :=
  match last s with
  | Some d => d =? c
  | None => false
  end.

Definition drop_last (s : pystr) : pystr := removelast s.

(** [s.startswith(p)] *)
Fixpoint startswith (s p : pystr) {struct p} : bool :=
  match p, s with
  | [], _ => true
  | a :: p', b :: s' => (a =? b) && startswith s' p'
  | _ :: _, [] => false
  end.

(** [str(n)] for an [int]. *)
Fixpoint digits_of (fuel : nat) (n : N) (acc : pystr) : pystr :=
  match fuel with
  | O => acc
  | S f =>
      let acc' := (0x30 + n mod 10) :: acc in
      if n <? 10 then acc' else digits_of f (n / 10) acc'
  end.

Definition str_of_nat (n : N) : pystr := digits_of (S (N.to_nat (N.log2 n))) n [].

Definition str_of_int (z : Z) : pystr :=
  if (z <? 0)%Z then 0x2D :: str_of_nat (Z.abs_N z) else str_of_nat (Z.abs_N z).

(** ** Python values and exceptions *)

(** The scalar values a configuration entry may hold.  A [float] is kept
    as its [repr]; no arithmetic is ever done on one. *)
Inductive pyval :=
| PNone
| PBool (b : bool)
| PInt (z : Z)
| PFloat (repr : pystr)
| PStr (s : pystr).

(** Truth value, as tested by [if self.api_key:]. *)
Definition truthy (v : pyval) : bool :=
  match v with
  | PNone => false
  | PBool b => b
  | PInt z => negb (z =? 0)%Z
  | PFloat r => negb (bool_decide (r = py "0.0") || bool_decide (r = py "-0.0"))
  | PStr s => negb (bool_decide (s = []))
  end.

(** [str(v)], the text an f-string substitutes for [{v}]. *)
Definition str_of (v : pyval) : pystr :=
  match v with
  | PNone => py "None"
  | PBool true => py "True"
  | PBool false => py "False"
  | PInt z => str_of_int z
  | PFloat r => r
  | PStr s => s
  end.

Definition type_name (v : pyval) : pystr :=
  match v with
  | PNone => py "NoneType"
  | PBool _ => py "bool"
  | PInt _ => py "int"
  | PFloat _ => py "float"
  | PStr _ => py "str"
  end.

(** Exception classes, all of them subclasses of [Exception].
    [ClientError] stands for [aiohttp.ClientError] and its subclasses that
    are not timeouts, [TimeoutError] for [asyncio.TimeoutError],
    [ServerTimeoutError] for aiohttp's class that inherits from both. *)
Inductive exn_class :=
| ValueError
| RuntimeError
| AttributeError
| ClientError
| ServerTimeoutError
| TimeoutError
| OtherException.

(** An exception: its class and [str(e)]. *)
Record exn := Exn { exn_cls : exn_class; exn_str : pystr }.

Definition isinstance_ClientError (e : exn) : bool :=
  match exn_cls e with
  | ClientError | ServerTimeoutError => true
  | _ => false
  end.

Definition isinstance_TimeoutError (e : exn) : bool :=
  match exn_cls e with
  | TimeoutError | ServerTimeoutError => true
  | _ => false
  end.

Inductive result (A : Type) :=
| Ok (a : A)
| Raise (e : exn).
Arguments Ok {A} a.
Arguments Raise {A} e.

(** ** The adapter object and its constructor *)

Record Self := {
  api_base : pystr;
  api_key : pyval;
  timeout : pyval;
  role : pyval;
  emotion : pyval;
  speed : pyval;
  headers : gmap pystr pystr;
  model_name : pyval
}.

(** [d.get(key, dflt)] *)
Definition dict_get (d : gmap pystr pyval) (key : pystr) (dflt : pyval) : pyval :=
  default dflt (d !! key).

(** [__init__].  [api_base.endswith] exists only on a [str]; any other
    value stops construction with an [AttributeError]. *)
Definition init (provider_config : gmap pystr pyval) : result Self :=
  match dict_get provider_config (py "api_base") (PStr (py "http://127.0.0.1:50042")) with
  | PStr base =>
      let api_base := if endswith base 0x2F then drop_last base else base in
      let api_key := dict_get provider_config (py "api_key") (PStr (py "")) in
      let timeout := dict_get provider_config (py "timeout") (PInt 30) in
      let role := dict_get provider_config (py "role") (PStr (py "缪尔赛斯")) in
      let emotion := dict_get provider_config (py "emotion") (PStr (py "平常")) in
      let speed := dict_get provider_config (py "speed") (PFloat (py "1.0")) in
      let headers : gmap pystr pystr :=
        <[py "User-Agent" := py "AstrBot-CustomTTS/1.0"]>
          (<[py "Content-Type" := py "application/json"]> ∅) in
      let headers :=
        if truthy api_key
        then <[py "Authorization" := py "Bearer " ++ str_of api_key]> headers
        else headers in
      Ok {| api_base := api_base; api_key := api_key; timeout := timeout;
            role := role; emotion := emotion; speed := speed;
            headers := headers;
            model_name := dict_get provider_config (py "model") (PStr (py "custom_tts")) |}
  | v =>
      Raise (Exn AttributeError
               (py "'" ++ type_name v ++ py "' object has no attribute 'endswith'"))
  end.

(** ** The world the coroutines act on *)

Inductive level := DEBUG | INFO | WARNING | ERROR.

(** A logger call: a formatted line, or the debug line that prints the
    request dictionary (kept unformatted). *)
Inductive log_record :=
| Line (lvl : level) (msg : pystr)
| RequestLine (lvl : level) (prefix : pystr) (data : list (pystr * pyval)).

(** The arguments of [session.post], with the session's total timeout. *)
Record http_request := {
  req_url : pystr;
  req_json : list (pystr * pyval);
  req_headers : gmap pystr pystr;
  req_timeout : pyval
}.

(** A response: [response.status], what [response.read()] returns and
    what [response.text()] returns. *)
Record http_response := {
  status : Z;
  content : list Byte.byte;
  text : pystr
}.

(** How an exchange ends: with a response, or with an exception raised
    by [session.post] or while the body is read. *)
Inductive http_outcome :=
| Reply (r : http_response)
| Failure (e : exn).

(** The collaborators: [get_astrbot_data_path()], the sequence of values
    [uuid.uuid4()] draws, and the remote service behind aiohttp. *)
Record env := {
  data_path : pystr;
  uuid4 : nat -> N;
  session_post : http_request -> http_outcome
}.

(** Mutable state: directories and regular files (every directory can be
    created and every file written: disk faults are not modelled), the
    number of UUIDs drawn, the requests sent and the log. *)
Record world := {
  fs_dirs : gset pystr;
  fs_files : gmap pystr (list Byte.byte);
  uuid_drawn : nat;
  net_log : list http_request;
  log : list log_record
}.

Definition M (A : Type) : Type := world -> result A * world.

Definition ret {A} (a : A) : M A := fun w => (Ok a, w).

Definition bind {A B} (m : M A) (k : A -> M B) : M B :=
  fun w =>
    match m w with
    | (Ok a, w') => k a w'
    | (Raise e, w') => (Raise e, w')
    end.

Definition raise {A} (e : exn) : M A := fun w => (Raise e, w).

(** [try: body / except ...: handler]; state changes made before the
    exception stay. *)
Definition try_except {A} (body : M A) (handler : exn -> M A) : M A :=
  fun w =>
    match body w with
    | (Ok a, w') => (Ok a, w')
    | (Raise e, w') => handler e w'
    end.

Declare Scope py_scope.
Notation "x <- m ;; k" := (bind m (fun x => k))
  (at level 100, m at next level, right associativity) : py_scope.
Notation "m ;; k" := (bind m (fun _ => k))
  (at level 100, right associativity) : py_scope.
Local Open Scope py_scope.

Definition logger (r : log_record) : M unit :=
  fun w => (Ok tt, {| fs_dirs := fs_dirs w; fs_files := fs_files w;
                      uuid_drawn := uuid_drawn w; net_log := net_log w;
                      log := log w ++ [r] |}).

(** [os.path.join(a, b)] (posixpath). *)
Definition path_join (a b : pystr) : pystr :=
  if startswith b (py "/") then b
  else if bool_decide (a = []) || endswith a 0x2F then a ++ b
  else a ++ py "/" ++ b.

(** [os.makedirs(d, exist_ok=True)]; the ancestors it may create on
    the way are not tracked. *)
Definition makedirs (d : pystr) : M unit :=
  fun w => (Ok tt, {| fs_dirs := {[d]} ∪ fs_dirs w; fs_files := fs_files w;
                      uuid_drawn := uuid_drawn w; net_log := net_log w;
                      log := log w |}).

(** [with open(p, "wb") as f: f.write(data)] *)
Definition write_file (p : pystr) (data : list Byte.byte) : M unit :=
  fun w => (Ok tt, {| fs_dirs := fs_dirs w; fs_files := <[p := data]> (fs_files w);
                      uuid_drawn := uuid_drawn w; net_log := net_log w;
                      log := log w |}).

(** [os.path.exists(p)] and [os.path.getsize(p)] *)
Definition path_exists (p : pystr) : M bool :=
  fun w => (Ok (bool_decide (is_Some (fs_files w !! p)) || bool_decide (p ∈ fs_dirs w)), w).

Definition getsize (p : pystr) : M Z :=
  fun w => (Ok (Z.of_nat (length (default [] (fs_files w !! p)))), w).

Definition hex_digit (d : N) : N := if d <? 10 then 0x30 + d else 0x57 + d.

Fixpoint hex_digits (n : nat) (u : N) (acc : pystr) : pystr :=
  match n with
  | O => acc
  | S k => hex_digits k (u / 16) (hex_digit (u mod 16) :: acc)
  end.

(** [uuid.uuid4().hex]: a fresh 128-bit value as 32 hexadecimal digits. *)
Definition uuid4_hex (E : env) : M pystr :=
  fun w => (Ok (hex_digits 32 (uuid4 E (uuid_drawn w)) []),
            {| fs_dirs := fs_dirs w; fs_files := fs_files w;
               uuid_drawn := S (uuid_drawn w); net_log := net_log w;
               log := log w |}).

(** [async with session.post(...) as response]: the request leaves, the
    service decides the outcome. *)
Definition post (E : env) (rq : http_request) : M http_response :=
  fun w =>
    let w' := {| fs_dirs := fs_dirs w; fs_files := fs_files w;
                 uuid_drawn := uuid_drawn w; net_log := net_log w ++ [rq];
                 log := log w |} in
    match session_post E rq with
    | Reply r => (Ok r, w')
    | Failure e => (Raise e, w')
    end.

(** ** The two coroutines *)

(** [f"{self.api_base}/get_role_music"] *)
Definition endpoint_of (self : Self) : pystr := api_base self ++ py "/get_role_music".

(** The [request_data] dictionary of [get_audio]. *)
Definition request_data_of (self : Self) (text : pystr) : list (pystr * pyval) :=
  [(py "role", role self); (py "emotion", emotion self);
   (py "content", PStr text); (py "speed", speed self)].

(** The [test_data] dictionary of [test_connection]. *)
Definition test_data_of (self : Self) : list (pystr * pyval) :=
  [(py "role", role self); (py "emotion", emotion self);
   (py "content", PStr (py "测试")); (py "speed", PFloat (py "1.0"))].

(** The three [except] clauses of [get_audio], tried in source order. *)
Definition get_audio_except (self : Self) (e : exn) : M pystr :=
  if isinstance_ClientError e then
    logger (Line ERROR (py "[Custom TTS] 网络请求失败: " ++ exn_str e)) ;;
    raise (Exn RuntimeError (py "[Custom TTS] 网络请求失败: " ++ exn_str e))
  else if isinstance_TimeoutError e then
    logger (Line ERROR (py "[Custom TTS] 请求超时 (超时时间: "
                          ++ str_of (timeout self) ++ py "秒)")) ;;
    raise (Exn RuntimeError (py "[Custom TTS] 请求超时"))
  else
    logger (Line ERROR (py "[Custom TTS] 未知错误: " ++ exn_str e)) ;;
    raise (Exn RuntimeError (py "[Custom TTS] 未知错误: " ++ exn_str e)).

(** The body of the [try] block of [get_audio]. *)
Definition get_audio_try (E : env) (self : Self) (audio_path endpoint : pystr)
    (request_data : list (pystr * pyval)) : M pystr :=
  response <- post E {| req_url := endpoint; req_json := request_data;
                        req_headers := headers self;
                        req_timeout := timeout self |} ;;
  if (status response =? 200)%Z then
    let audio_data := content response in
    write_file audio_path audio_data ;;
    ex <- path_exists audio_path ;;
    nonempty <- (if ex : bool
                 then (sz <- getsize audio_path ;; ret (0 <? sz)%Z)
                 else ret false) ;;
    if nonempty : bool then
      logger (Line INFO (py "[Custom TTS] 音频生成成功: " ++ audio_path)) ;;
      ret audio_path
    else
      raise (Exn RuntimeError (py "[Custom TTS] 生成的音频文件为空或不存在"))
  else
    let error_text := text response in
    logger (Line ERROR (py "[Custom TTS] API请求失败，状态码: "
                          ++ str_of_int (status response))) ;;
    logger (Line ERROR (py "[Custom TTS] 错误信息: " ++ error_text)) ;;
    raise (Exn RuntimeError (py "[Custom TTS] API请求失败: "
                               ++ str_of_int (status response)
                               ++ py " - " ++ error_text)).

Definition get_audio (E : env) (self : Self) (text : pystr) : M pystr :=
  match strip text with
  | [] => raise (Exn ValueError (py "[Custom TTS] TTS文本不能为空"))
  | _ :: _ =>
      let temp_dir := path_join (data_path E) (py "temp") in
      makedirs temp_dir ;;
      hex <- uuid4_hex E ;;
      let audio_path := path_join temp_dir (py "custom_tts_" ++ hex ++ py ".wav") in
      let request_data := request_data_of self text in
      let endpoint := endpoint_of self in
      logger (Line DEBUG (py "[Custom TTS] 正在调用TTS接口: " ++ endpoint)) ;;
      logger (RequestLine DEBUG (py "[Custom TTS] 请求参数: ") request_data) ;;
      try_except (get_audio_try E self audio_path endpoint request_data)
                 (get_audio_except self)
  end.

Definition test_connection (E : env) (self : Self) : M bool :=
  try_except
    (let endpoint := endpoint_of self in
     let test_data := test_data_of self in
     response <- post E {| req_url := endpoint; req_json := test_data;
                           req_headers := headers self;
                           req_timeout := PInt 10 |} ;;
     ret (bool_decide (status response ∈ [200; 400; 422]%Z)))
    (fun e =>
       logger (Line WARNING (py "[Custom TTS] 连接测试失败: " ++ exn_str e)) ;;
       ret false).

(** ** Error kinds *)

(** Modelled from the spec: the error taxonomy of its section 7, which
    the source does not declare.  The source raises [ValueError] once and
    [RuntimeError] everywhere else, each raise site with its own message
    label. *)
Inductive error_kind :=
| InvalidInput
| RemoteRejected
| SynthesisFailed
| NetworkFailure
| Timeout
| UnknownFailure.

(** Modelled from the spec: the kind of an exception that reaches the
    caller, read off its class and the label its message starts with. *)
Definition kind_of (e : exn) : option error_kind :=
  match exn_cls e with
  | ValueError => Some InvalidInput
  | RuntimeError =>
      let m := exn_str e in
      if startswith m (py "[Custom TTS] API请求失败: ") then Some RemoteRejected
      else if bool_decide (m = py "[Custom TTS] 生成的音频文件为空或不存在")
      then Some SynthesisFailed
      else if startswith m (py "[Custom TTS] 网络请求失败: ") then Some NetworkFailure
      else if bool_decide (m = py "[Custom TTS] 请求超时") then Some Timeout
      else if startswith m (py "[Custom TTS] 未知错误: ") then Some UnknownFailure
      else None
  | _ => None
  end.

(** ** Sample inputs *)

Definition empty_world : world :=
  {| fs_dirs := ∅; fs_files := ∅; uuid_drawn := 0; net_log := []; log := [] |}.

(** A service that answers every request with the same outcome. *)
Definition env_with (o : http_outcome) : env :=
  {| data_path := py "/data"; uuid4 := fun n => 0x1f + N.of_nat n;
     session_post := fun _ => o |}.

Definition sample_config : gmap pystr pyval :=
  <[py "api_base" := PStr (py "http://x/")]> (<[py "api_key" := PStr (py "k3y")]> ∅).

(** The adapter [init sample_config] builds. *)
Definition sample_self : Self :=
  {| api_base := py "http://x"; api_key := PStr (py "k3y");
     timeout := PInt 30; role := PStr (py "缪尔赛斯");
     emotion := PStr (py "平常"); speed := PFloat (py "1.0");
     headers :=
       <[py "Authorization" := py "Bearer k3y"]>
         (<[py "User-Agent" := py "AstrBot-CustomTTS/1.0"]>
            (<[py "Content-Type" := py "application/json"]> ∅));
     model_name := PStr (py "custom_tts") |}.

Definition wav_bytes : list Byte.byte := [Byte.x52; Byte.x49; Byte.x46; Byte.x46].

Definition reply_wav : http_response :=
  {| status := 200; content := wav_bytes; text := [] |}.

Definition reply_empty : http_response :=
  {| status := 200; content := []; text := [] |}.

Definition reply_404 : http_response :=
  {| status := 404; content := []; text := py "Not Found" |}.

Definition timeout_exn : exn := Exn TimeoutError [].

Definition refused_exn : exn :=
  Exn ClientError (py "Cannot connect to host x:80 ssl:default [Connect call failed]").


(** The request [get_audio] sends for [txt], and the probe of
    [test_connection], as single values. *)
Definition synthesis_request (self : Self) (txt : pystr) : http_request :=
  {| req_url := endpoint_of self; req_json := request_data_of self txt;
     req_headers := headers self; req_timeout := timeout self |}.

Definition probe_request (self : Self) : http_request :=
  {| req_url := endpoint_of self; req_json := test_data_of self;
     req_headers := headers self; req_timeout := PInt 10 |}.

(** The destination [get_audio] computes when started in world [w]. *)
Definition audio_path_of (E : env) (w : world) : pystr :=
  path_join (path_join (data_path E) (py "temp"))
    (py "custom_tts_" ++ hex_digits 32 (uuid4 E (uuid_drawn w)) [] ++ py ".wav").

(** The world in which the [try] block of [get_audio] starts: the
    temporary directory made, one UUID drawn, two debug lines logged. *)
Definition prepared (self : Self) (txt : pystr) (w : world) (temp_dir : pystr) : world :=
  {| fs_dirs := {[temp_dir]} ∪ fs_dirs w; fs_files := fs_files w;
     uuid_drawn := S (uuid_drawn w); net_log := net_log w;
     log := (log w
             ++ [Line DEBUG (py "[Custom TTS] 正在调用TTS接口: " ++ endpoint_of self)])
            ++ [RequestLine DEBUG (py "[Custom TTS] 请求参数: ")
                  (request_data_of self txt)] |}.

(** The characters of [uuid.uuid4().hex]: digits and [a] to [f]. *)
Definition is_hex_char (c : N) : bool :=
  ((0x30 <=? c) && (c <=? 0x39)) || ((0x61 <=? c) && (c <=? 0x66)).

(** A world in which one UUID has been drawn already. *)
Definition later_world : world :=
  {| fs_dirs := ∅; fs_files := ∅; uuid_drawn := 1; net_log := []; log := [] |}.

Definition server_timeout_exn : exn := Exn ServerTimeoutError (py "read timeout").

(** A configuration with a speed outside 0.1-3.0, and the adapter
    [init] builds from it. *)
Definition fast_config : gmap pystr pyval :=
  <[py "speed" := PFloat (py "9.5")]> (<[py "timeout" := PInt 5]> ∅).

Definition fast_self : Self :=
  {| api_base := py "http://127.0.0.1:50042"; api_key := PStr (py "");
     timeout := PInt 5; role := PStr (py "缪尔赛斯");
     emotion := PStr (py "平常"); speed := PFloat (py "9.5");
     headers :=
       <[py "User-Agent" := py "AstrBot-CustomTTS/1.0"]>
         (<[py "Content-Type" := py "application/json"]> ∅);
     model_name := PStr (py "custom_tts") |}.

(** Text that is empty or made of white space only. *)
Definition blank (txt : pystr) : Prop := Forall (fun c => is_space c = true) txt.

(** * Properties *)

(** ** Strings *)

Example py_demo : py "a/é错" = [0x61; 0x2F; 0xE9; 0x9519].
Proof. reflexivity. Qed.

Example str_of_int_demo :
  str_of_int 404 = py "404" /\ str_of_int 0 = py "0" /\ str_of_int (-12) = py "-12"
  /\ str_of_int 1000 = py "1000".
Proof. repeat split; reflexivity. Qed.

Example strip_demo : strip (0x09 :: py " 　a b ") = py "a b".
Proof. reflexivity. Qed.

Example uuid_hex_demo :
  hex_digits 32 0xdeadbeef [] = py "000000000000000000000000deadbeef".
Proof. reflexivity. Qed.

Arguments path_join : simpl never.
Arguments str_of_int : simpl never.
Arguments hex_digits : simpl never.

(** ** Trimming *)

Lemma lstrip_blank (s : pystr) : blank s -> lstrip s = [].
Proof.
  induction 1 as [|c r Hc _ IH]; simpl; [reflexivity|].
  now rewrite Hc.
Qed.

Lemma lstrip_nil_blank (s : pystr) : lstrip s = [] -> blank s.
Proof.
  induction s as [|c r IH]; simpl; intros H; [constructor|].
  destruct (is_space c) eqn:Hc; [|discriminate].
  apply Forall_cons; split; [exact Hc | exact (IH H)].
Qed.

(** What [lstrip] leaves is empty or starts with a visible character. *)
Lemma lstrip_head (s : pystr) c r : lstrip s = c :: r -> is_space c = false.
Proof.
  induction s as [|d t IH]; simpl; [discriminate|].
  destruct (is_space d) eqn:Hd; [exact IH|].
  intros [= <- _]. exact Hd.
Qed.

Lemma blank_rev (s : pystr) : blank (rev s) -> blank s.
Proof.
  unfold blank. rewrite !Forall_forall. intros H c Hc.
  apply H. now apply list_elem_of_In, in_rev, list_elem_of_In in Hc.
Qed.

Lemma strip_blank (s : pystr) : blank s -> strip s = [].
Proof.
  intros H. unfold strip, rstrip. now rewrite (lstrip_blank s H).
Qed.

Lemma strip_nil_blank (s : pystr) : strip s = [] -> blank s.
Proof.
  unfold strip, rstrip. intros H.
  apply (f_equal (@rev N)) in H. rewrite rev_involutive in H. simpl in H.
  apply lstrip_nil_blank, blank_rev in H.
  destruct (lstrip s) as [|c r] eqn:Hl; [now apply lstrip_nil_blank|].
  apply lstrip_head in Hl. inversion H as [|? ? Hc _]; congruence.
Qed.

Lemma strip_nil_iff (s : pystr) : strip s = [] <-> blank s.
Proof. split; [apply strip_nil_blank | apply strip_blank]. Qed.

(** ** Running [get_audio] *)

Ltac run_py :=
  repeat (unfold get_audio_try, get_audio_except, try_except, bind, ret, raise,
            logger, makedirs, write_file, path_exists, getsize, uuid4_hex, post;
          cbn [fst snd fs_dirs fs_files uuid_drawn net_log log]).

(** Text that survives trimming gets past the guard: the preparations
    run, then the [try] block with its handlers. *)
Lemma get_audio_unfold E self txt w :
  strip txt <> [] ->
  get_audio E self txt w
  = try_except
      (get_audio_try E self (audio_path_of E w) (endpoint_of self)
         (request_data_of self txt))
      (get_audio_except self)
      (prepared self txt w (path_join (data_path E) (py "temp"))).
Proof.
  intros Hne. unfold get_audio.
  destruct (strip txt) as [|c r]; [congruence|].
  reflexivity.
Qed.

(** Blank text stops at the guard, the world untouched. *)
Lemma get_audio_blank E self txt w :
  blank txt ->
  get_audio E self txt w
  = (Raise (Exn ValueError (py "[Custom TTS] TTS文本不能为空")), w).
Proof.
  intros Hb. unfold get_audio. now rewrite (strip_blank txt Hb).
Qed.



Ltac world_fields := cbn [fst snd fs_dirs fs_files uuid_drawn net_log log].


(** ** Synthesis: the successful exchange *)



(** ** Synthesis: blank text *)

(** C2. For text that is empty or all white space, [get_audio] raises
    [ValueError] (the [InvalidInput] kind) and sends no request: the log
    of requests is the one it started with. *)
Theorem get_audio_blank_no_request E self txt w :
  blank txt ->
  exists e w',
    get_audio E self txt w = (Raise e, w')
    /\ exn_cls e = ValueError
    /\ kind_of e = Some InvalidInput
    /\ net_log w' = net_log w.
Proof.
  intros Hb. rewrite (get_audio_blank E self txt w Hb).
  eexists; eexists; split; [reflexivity|].
  repeat split.
Qed.

Lemma get_audio_blank_no_request_witness :
  blank (py "  　") /\
  exists e w',
    get_audio (env_with (Reply reply_wav)) sample_self (py "  　") empty_world
    = (Raise e, w')
    /\ exn_cls e = ValueError
    /\ kind_of e = Some InvalidInput
    /\ net_log w' = net_log empty_world.
Proof.
  assert (Hb : blank (py "  　")) by (repeat constructor).
  split; [exact Hb|].
  exact (get_audio_blank_no_request (env_with (Reply reply_wav)) sample_self
           (py "  　") empty_world Hb).
Defined.

(** C9. For blank text [get_audio] leaves the file system alone as well:
    no directory is made, no file is written and no UUID is drawn, the
    guard being the first statement of the coroutine. *)
Theorem get_audio_blank_no_files E self txt w :
  blank txt ->
  let w' := snd (get_audio E self txt w) in
  fs_dirs w' = fs_dirs w
  /\ fs_files w' = fs_files w
  /\ uuid_drawn w' = uuid_drawn w.
Proof.
  intros Hb. rewrite (get_audio_blank E self txt w Hb). repeat split.
Qed.

Lemma get_audio_blank_no_files_witness :
  blank [] /\
  let w' := snd (get_audio (env_with (Reply reply_wav)) sample_self [] empty_world) in
  fs_dirs w' = fs_dirs empty_world
  /\ fs_files w' = fs_files empty_world
  /\ uuid_drawn w' = uuid_drawn empty_world.
Proof.
  split; [constructor|].
  apply (get_audio_blank_no_files (env_with (Reply reply_wav)) sample_self []
           empty_world).
  constructor.
Defined.

(** ** Error kinds of the messages *)

Lemma kind_of_unknown (m : pystr) :
  kind_of (Exn RuntimeError (py "[Custom TTS] 未知错误: " ++ m)) = Some UnknownFailure.
Proof. vm_compute. reflexivity. Qed.

Lemma kind_of_network (m : pystr) :
  kind_of (Exn RuntimeError (py "[Custom TTS] 网络请求失败: " ++ m)) = Some NetworkFailure.
Proof. vm_compute. reflexivity. Qed.

Lemma kind_of_rejected (m : pystr) :
  kind_of (Exn RuntimeError (py "[Custom TTS] API请求失败: " ++ m)) = Some RemoteRejected.
Proof. vm_compute. reflexivity. Qed.

Lemma kind_of_timeout :
  kind_of (Exn RuntimeError (py "[Custom TTS] 请求超时")) = Some Timeout.
Proof. vm_compute. reflexivity. Qed.

Lemma kind_of_synthesis :
  kind_of (Exn RuntimeError (py "[Custom TTS] 生成的音频文件为空或不存在"))
  = Some SynthesisFailed.
Proof. vm_compute. reflexivity. Qed.

(** ** Synthesis: errors raised inside the [try] block

    The two [raise RuntimeError(...)] statements of the [try] block are
    themselves caught by its last clause, [except Exception as e], which
    raises a new [RuntimeError] labelled as an unknown error. *)

(** C3, as the code behaves. For a response whose status is not 200 the
    body is read as text and a [RuntimeError] naming the status and the
    text is raised inside the [try] block; the catch-all clause wraps it,
    so the caller receives the unknown-error message with the rejection
    message inside: [UnknownFailure], not [RemoteRejected]. *)
Theorem get_audio_rejected_is_wrapped E self txt w r :
  strip txt <> [] ->
  session_post E (synthesis_request self txt) = Reply r ->
  status r <> 200%Z ->
  exists e w',
    get_audio E self txt w = (Raise e, w')
    /\ e = Exn RuntimeError
             (py "[Custom TTS] 未知错误: "
                ++ py "[Custom TTS] API请求失败: " ++ str_of_int (status r)
                ++ py " - " ++ text r)
    /\ kind_of e = Some UnknownFailure
    /\ kind_of e <> Some RemoteRejected.
Proof.
  intros Hne Hpost Hst.
  rewrite (get_audio_unfold E self txt w Hne).
  unfold synthesis_request in Hpost.
  run_py. unfold prepared; world_fields.
  rewrite Hpost. apply Z.eqb_neq in Hst. rewrite Hst. world_fields.
  unfold isinstance_ClientError, isinstance_TimeoutError. cbn [exn_cls exn_str].
  world_fields.
  eexists; eexists; split; [reflexivity|].
  split; [reflexivity|]. rewrite kind_of_unknown. split; [reflexivity|discriminate].
Qed.

Lemma get_audio_rejected_is_wrapped_witness :
  exists e w',
    get_audio (env_with (Reply reply_404)) sample_self (py "hi") empty_world
    = (Raise e, w')
    /\ e = Exn RuntimeError
             (py "[Custom TTS] 未知错误: [Custom TTS] API请求失败: 404 - Not Found")
    /\ kind_of e = Some UnknownFailure
    /\ kind_of e <> Some RemoteRejected.
Proof.
  assert (Hne : strip (py "hi") <> []) by (vm_compute; discriminate).
  assert (Hst : status reply_404 <> 200%Z) by discriminate.
  exact (get_audio_rejected_is_wrapped (env_with (Reply reply_404)) sample_self
           (py "hi") empty_world reply_404 Hne eq_refl Hst).
Defined.

(** C5, as the code behaves. For a 200 response with an empty body the
    empty file is written, the size check fails and the [RuntimeError] of
    the [else] branch is raised inside the [try] block; the catch-all
    clause wraps it, so the caller receives [UnknownFailure], not
    [SynthesisFailed].  No path is returned and the destination holds an
    empty file. *)
Theorem get_audio_empty_body_is_wrapped E self txt w r :
  strip txt <> [] ->
  session_post E (synthesis_request self txt) = Reply r ->
  status r = 200%Z ->
  content r = [] ->
  exists e w',
    get_audio E self txt w = (Raise e, w')
    /\ e = Exn RuntimeError
             (py "[Custom TTS] 未知错误: "
                ++ py "[Custom TTS] 生成的音频文件为空或不存在")
    /\ kind_of e = Some UnknownFailure
    /\ kind_of e <> Some SynthesisFailed
    /\ fs_files w' !! audio_path_of E w = Some [].
Proof.
  intros Hne Hpost H200 Hbody.
  rewrite (get_audio_unfold E self txt w Hne).
  unfold synthesis_request in Hpost.
  run_py. unfold prepared; world_fields.
  rewrite Hpost, H200, Hbody. cbn [Z.eqb Pos.eqb]. world_fields.
  rewrite !lookup_insert_eq.
  assert (Hs : bool_decide (is_Some (Some (@nil Byte.byte))) = true)
    by (apply bool_decide_eq_true_2; eauto).
  rewrite Hs. cbn [orb]. world_fields.
  rewrite lookup_insert_eq.
  change (0 <? Z.of_nat (length (default [] (Some (@nil Byte.byte)))))%Z with false.
  world_fields.
  unfold isinstance_ClientError, isinstance_TimeoutError. cbn [exn_cls exn_str].
  world_fields.
  eexists; eexists; split; [reflexivity|]. world_fields.
  split; [reflexivity|]. rewrite kind_of_unknown, lookup_insert_eq.
  repeat split. discriminate.
Qed.

Lemma get_audio_empty_body_is_wrapped_witness :
  exists e w',
    get_audio (env_with (Reply reply_empty)) sample_self (py "hi") empty_world
    = (Raise e, w')
    /\ e = Exn RuntimeError
             (py "[Custom TTS] 未知错误: [Custom TTS] 生成的音频文件为空或不存在")
    /\ kind_of e = Some UnknownFailure
    /\ kind_of e <> Some SynthesisFailed
    /\ fs_files w' !! audio_path_of (env_with (Reply reply_empty)) empty_world
       = Some [].
Proof.
  assert (Hne : strip (py "hi") <> []) by (vm_compute; discriminate).
  exact (get_audio_empty_body_is_wrapped (env_with (Reply reply_empty)) sample_self
           (py "hi") empty_world reply_empty Hne eq_refl eq_refl eq_refl).
Defined.

(** ** Synthesis: exceptions raised by the exchange *)

Lemma get_audio_failure E self txt w e :
  strip txt <> [] ->
  session_post E (synthesis_request self txt) = Failure e ->
  fst (get_audio E self txt w)
  = Raise (if isinstance_ClientError e then
             Exn RuntimeError (py "[Custom TTS] 网络请求失败: " ++ exn_str e)
           else if isinstance_TimeoutError e then
             Exn RuntimeError (py "[Custom TTS] 请求超时")
           else Exn RuntimeError (py "[Custom TTS] 未知错误: " ++ exn_str e)).
Proof.
  intros Hne Hpost.
  rewrite (get_audio_unfold E self txt w Hne).
  unfold synthesis_request in Hpost.
  run_py. unfold prepared; world_fields.
  rewrite Hpost.
  destruct (isinstance_ClientError e); [reflexivity|].
  destruct (isinstance_TimeoutError e); reflexivity.
Qed.

(** C6. When the total timeout expires ([asyncio.TimeoutError]),
    [get_audio] fails with the [Timeout] kind; when the transport fails
    ([aiohttp.ClientError]), it fails with the [NetworkFailure] kind,
    the message carrying the description of the cause.  The two
    exceptions and their kinds are different. *)
Theorem get_audio_timeout_vs_network Et En self txt w et en :
  strip txt <> [] ->
  session_post Et (synthesis_request self txt) = Failure et ->
  exn_cls et = TimeoutError ->
  session_post En (synthesis_request self txt) = Failure en ->
  exn_cls en = ClientError ->
  exists xt xn,
    fst (get_audio Et self txt w) = Raise xt
    /\ fst (get_audio En self txt w) = Raise xn
    /\ kind_of xt = Some Timeout
    /\ kind_of xn = Some NetworkFailure
    /\ exn_str xn = py "[Custom TTS] 网络请求失败: " ++ exn_str en
    /\ xt <> xn
    /\ kind_of xt <> kind_of xn.
Proof.
  intros Hne Ht Hct Hn Hcn.
  rewrite (get_audio_failure Et self txt w et Hne Ht).
  rewrite (get_audio_failure En self txt w en Hne Hn).
  unfold isinstance_ClientError, isinstance_TimeoutError. rewrite Hct, Hcn.
  eexists; eexists; split; [reflexivity|]. split; [reflexivity|].
  rewrite kind_of_timeout, kind_of_network.
  do 3 (split; [reflexivity|]).
  split; [|discriminate].
  intros Heq. apply (f_equal kind_of) in Heq.
  rewrite kind_of_timeout, kind_of_network in Heq. discriminate.
Qed.

Lemma get_audio_timeout_vs_network_witness :
  exists xt xn,
    fst (get_audio (env_with (Failure timeout_exn)) sample_self (py "hi") empty_world)
    = Raise xt
    /\ fst (get_audio (env_with (Failure refused_exn)) sample_self (py "hi") empty_world)
       = Raise xn
    /\ kind_of xt = Some Timeout
    /\ kind_of xn = Some NetworkFailure
    /\ exn_str xn = py "[Custom TTS] 网络请求失败: " ++ exn_str refused_exn
    /\ xt <> xn
    /\ kind_of xt <> kind_of xn.
Proof.
  assert (Hne : strip (py "hi") <> []) by (vm_compute; discriminate).
  exact (get_audio_timeout_vs_network (env_with (Failure timeout_exn))
           (env_with (Failure refused_exn)) sample_self (py "hi") empty_world
           timeout_exn refused_exn Hne eq_refl eq_refl eq_refl eq_refl).
Defined.

(** ** The connection probe *)

(** C4. [test_connection] always returns a boolean, never an exception;
    the boolean is [true] exactly when the probe is answered with status
    200, 400 or 422.  Any other status and any exception give [false]. *)
Theorem test_connection_reachable E self w :
  exists b w',
    test_connection E self w = (Ok b, w')
    /\ (b = true <->
        exists r, session_post E (probe_request self) = Reply r
                  /\ (status r = 200 \/ status r = 400 \/ status r = 422)%Z).
Proof.
  unfold test_connection, probe_request. run_py.
  destruct (session_post E _) as [r|e] eqn:Hpost.
  - eexists; eexists; split; [reflexivity|].
    rewrite bool_decide_eq_true. split.
    + intros Hin. exists r. split; [reflexivity|].
      rewrite !elem_of_cons in Hin.
      destruct Hin as [H|[H|[H|H]]]; auto. now apply elem_of_nil in H.
    + intros (r' & [= <-] & H). rewrite !elem_of_cons. tauto.
  - eexists; eexists; split; [reflexivity|].
    split; [discriminate|]. intros (r & Hr & _). discriminate.
Qed.

(** Whatever the outcome, a call with text that is not blank sends
    exactly one request, and so does the probe. *)
Lemma get_audio_net_log E self txt w :
  strip txt <> [] ->
  net_log (snd (get_audio E self txt w)) = net_log w ++ [synthesis_request self txt].
Proof.
  intros Hne. rewrite (get_audio_unfold E self txt w Hne).
  unfold synthesis_request.
  run_py. unfold prepared; world_fields.
  destruct (session_post E _) as [r|e].
  - destruct (status r =? 200)%Z; world_fields.
    + destruct (bool_decide _ || bool_decide _); world_fields.
      * destruct (0 <? _)%Z; world_fields; [reflexivity|].
        unfold isinstance_ClientError, isinstance_TimeoutError; cbn [exn_cls]; reflexivity.
      * unfold isinstance_ClientError, isinstance_TimeoutError; cbn [exn_cls]; reflexivity.
    + unfold isinstance_ClientError, isinstance_TimeoutError; cbn [exn_cls]; reflexivity.
  - destruct (isinstance_ClientError e); [reflexivity|].
    destruct (isinstance_TimeoutError e); reflexivity.
Qed.

Lemma test_connection_net_log E self w :
  net_log (snd (test_connection E self w)) = net_log w ++ [probe_request self].
Proof.
  unfold test_connection, probe_request. run_py.
  destruct (session_post E _); reflexivity.
Qed.

(** ** Construction *)

(** What a successful construction stores. *)
Lemma init_inv cfg self :
  init cfg = Ok self ->
  exists base,
    dict_get cfg (py "api_base") (PStr (py "http://127.0.0.1:50042")) = PStr base
    /\ api_base self = (if endswith base 0x2F then drop_last base else base)
    /\ api_key self = dict_get cfg (py "api_key") (PStr (py ""))
    /\ headers self
       = (if truthy (api_key self)
          then <[py "Authorization" := py "Bearer " ++ str_of (api_key self)]>
                 (<[py "User-Agent" := py "AstrBot-CustomTTS/1.0"]>
                    (<[py "Content-Type" := py "application/json"]> ∅))
          else <[py "User-Agent" := py "AstrBot-CustomTTS/1.0"]>
                 (<[py "Content-Type" := py "application/json"]> ∅)).
Proof.
  unfold init. intros H.
  destruct (dict_get cfg (py "api_base") _) as [| | | |base]; try discriminate.
  injection H as <-. exists base. cbn [api_base api_key headers]. repeat split.
Qed.

Example sample_self_built : init sample_config = Ok sample_self.
Proof. vm_compute. reflexivity. Qed.







Lemma header_names_distinct :
  py "Authorization" <> py "User-Agent"
  /\ py "Authorization" <> py "Content-Type"
  /\ py "User-Agent" <> py "Content-Type".
Proof. repeat split; intros H; vm_compute in H; discriminate. Qed.

(** C8. After construction the header map holds
    [Content-Type: application/json] and the fixed [User-Agent]; it holds
    [Authorization: Bearer <api_key>] exactly when the configured
    [api_key] (the empty string when absent) is a string that is not
    empty. *)
Theorem init_headers cfg self :
  init cfg = Ok self ->
  headers self !! py "Content-Type" = Some (py "application/json")
  /\ headers self !! py "User-Agent" = Some (py "AstrBot-CustomTTS/1.0")
  /\ forall key : pystr,
       dict_get cfg (py "api_key") (PStr (py "")) = PStr key ->
       (is_Some (headers self !! py "Authorization") <-> key <> [])
       /\ (key <> [] ->
           headers self !! py "Authorization" = Some (py "Bearer " ++ key)).
Proof.
  intros Hinit.
  destruct (init_inv cfg self Hinit) as (b & _ & _ & Hkey & Hh).
  destruct header_names_distinct as (Hau & Hac & Huc).
  rewrite Hh. split; [|split].
  - destruct (truthy (api_key self)).
    + now rewrite lookup_insert_ne, lookup_insert_ne, lookup_insert_eq.
    + now rewrite lookup_insert_ne, lookup_insert_eq.
  - destruct (truthy (api_key self)).
    + now rewrite lookup_insert_ne, lookup_insert_eq.
    + now rewrite lookup_insert_eq.
  - intros key Hcfg. rewrite Hkey, Hcfg. cbn [truthy str_of].
    destruct (decide (key = [])) as [->|Hne].
    + cbn [negb]. rewrite bool_decide_eq_true_2 by reflexivity. cbn [negb].
      rewrite lookup_insert_ne, lookup_insert_ne, lookup_empty by done.
      split; [|congruence].
      split; [intros [x Hx]; discriminate | congruence].
    + rewrite bool_decide_eq_false_2 by exact Hne. cbn [negb].
      rewrite lookup_insert_eq. split; [|reflexivity].
      split; [intros _; exact Hne | eauto].
Qed.

Lemma init_headers_witness :
  headers sample_self !! py "Content-Type" = Some (py "application/json")
  /\ headers sample_self !! py "User-Agent" = Some (py "AstrBot-CustomTTS/1.0")
  /\ forall key : pystr,
       dict_get sample_config (py "api_key") (PStr (py "")) = PStr key ->
       (is_Some (headers sample_self !! py "Authorization") <-> key <> [])
       /\ (key <> [] ->
           headers sample_self !! py "Authorization" = Some (py "Bearer " ++ key)).
Proof.
  apply (init_headers sample_config sample_self).
  vm_compute; reflexivity.
Defined.

(** The sample configuration carries the key [k3y]. *)
Example sample_authorization :
  headers sample_self !! py "Authorization" = Some (py "Bearer k3y")
  /\ endpoint_of sample_self = py "http://x/get_role_music".
Proof. split; vm_compute; reflexivity. Qed.

(** C10. When the configuration has no [api_base], construction stores
    the literal [http://127.0.0.1:50042], and the one request each of
    [get_audio] and [test_connection] sends goes to
    [http://127.0.0.1:50042/get_role_music]. *)
Theorem init_default_api_base cfg :
  cfg !! py "api_base" = None ->
  exists self,
    init cfg = Ok self
    /\ api_base self = py "http://127.0.0.1:50042"
    /\ (forall E txt w,
          strip txt <> [] ->
          exists rq,
            net_log (snd (get_audio E self txt w)) = net_log w ++ [rq]
            /\ req_url rq = py "http://127.0.0.1:50042/get_role_music")
    /\ (forall E w,
          exists rq,
            net_log (snd (test_connection E self w)) = net_log w ++ [rq]
            /\ req_url rq = py "http://127.0.0.1:50042/get_role_music").
Proof.
  intros Hcfg.
  destruct (init cfg) as [self|e] eqn:Hinit.
  - exists self. split; [reflexivity|].
    destruct (init_inv cfg self Hinit) as (b & Hb & Hapi & _).
    unfold dict_get in Hb. rewrite Hcfg in Hb.
    change (PStr (py "http://127.0.0.1:50042") = PStr b) in Hb.
    assert (Hbase : api_base self = py "http://127.0.0.1:50042").
    { rewrite Hapi. replace b with (py "http://127.0.0.1:50042") by congruence.
      vm_compute. reflexivity. }
    assert (Hurl : endpoint_of self = py "http://127.0.0.1:50042/get_role_music")
      by (unfold endpoint_of; rewrite Hbase; reflexivity).
    split; [exact Hbase|]. split.
    + intros E txt w Hne. exists (synthesis_request self txt).
      split; [now apply get_audio_net_log | exact Hurl].
    + intros E w. exists (probe_request self).
      split; [apply test_connection_net_log | exact Hurl].
  - exfalso. unfold init, dict_get in Hinit. rewrite Hcfg in Hinit.
    discriminate.
Qed.

Lemma init_default_api_base_witness :
  exists self,
    init ∅ = Ok self
    /\ api_base self = py "http://127.0.0.1:50042"
    /\ (forall E txt w,
          strip txt <> [] ->
          exists rq,
            net_log (snd (get_audio E self txt w)) = net_log w ++ [rq]
            /\ req_url rq = py "http://127.0.0.1:50042/get_role_music")
    /\ (forall E w,
          exists rq,
            net_log (snd (test_connection E self w)) = net_log w ++ [rq]
            /\ req_url rq = py "http://127.0.0.1:50042/get_role_music").
Proof.
  apply (init_default_api_base ∅). apply lookup_empty.
Defined.

(** ** Further facts about the same code *)

(** The [Authorization] header for any configured value, string or not:
    present exactly when the value is true in Python's sense. *)
Lemma init_authorization cfg self :
  init cfg = Ok self ->
  headers self !! py "Authorization"
  = (if truthy (api_key self)
     then Some (py "Bearer " ++ str_of (api_key self)) else None).
Proof.
  intros Hinit.
  destruct (init_inv cfg self Hinit) as (b & _ & _ & _ & Hh).
  destruct header_names_distinct as (Hau & Hac & _).
  rewrite Hh. destruct (truthy (api_key self)).
  - apply lookup_insert_eq.
  - rewrite lookup_insert_ne by (intros H; exact (Hau (eq_sym H))).
    rewrite lookup_insert_ne by (intros H; exact (Hac (eq_sym H))).
    apply lookup_empty.
Qed.

(** A path is returned only for a file that was written and is not
    empty. *)
Lemma get_audio_ok_nonempty E self txt w path w' :
  get_audio E self txt w = (Ok path, w') ->
  exists data, fs_files w' !! path = Some data /\ data <> [].
Proof.
  destruct (strip txt) as [|c t] eqn:Hs.
  - unfold get_audio. rewrite Hs. discriminate.
  - assert (Hne : strip txt <> []) by (rewrite Hs; discriminate).
    rewrite (get_audio_unfold E self txt w Hne).
    run_py. unfold prepared; world_fields.
    destruct (session_post E _) as [r|e].
    + destruct (status r =? 200)%Z; world_fields.
      * rewrite !lookup_insert_eq.
        destruct (bool_decide _ || bool_decide _); world_fields.
        -- rewrite ?lookup_insert_eq.
           change (default [] (Some (content r))) with (content r).
           destruct (content r) as [|b0 bs] eqn:Hc; cbn [length].
           ++ change (0 <? Z.of_nat 0)%Z with false. world_fields.
              unfold isinstance_ClientError, isinstance_TimeoutError;
                cbn [exn_cls]. discriminate.
           ++ replace (0 <? Z.of_nat (S (length bs)))%Z with true
                by (symmetry; apply Z.ltb_lt; lia).
              world_fields. intros [= <- <-]. world_fields.
              rewrite lookup_insert_eq. exists (b0 :: bs). now split.
        -- unfold isinstance_ClientError, isinstance_TimeoutError;
             cbn [exn_cls]. discriminate.
      * unfold isinstance_ClientError, isinstance_TimeoutError;
          cbn [exn_cls]. discriminate.
    + destruct (isinstance_ClientError e); [discriminate|].
      destruct (isinstance_TimeoutError e); discriminate.
Qed.

(** A timeout that aiohttp reports as [ServerTimeoutError] is a
    [ClientError] too and is taken by the first [except] clause. *)
Example server_timeout_goes_to_network :
  fst (get_audio (env_with (Failure (Exn ServerTimeoutError (py "read timeout"))))
         sample_self (py "hi") empty_world)
  = Raise (Exn RuntimeError (py "[Custom TTS] 网络请求失败: read timeout")).
Proof. vm_compute. reflexivity. Qed.

(** * More of the adapter *)

(** ** One run of [get_audio], case by case *)

Lemma bool_decide_is_Some {A} (x : A) : bool_decide (is_Some (Some x)) = true.
Proof. apply bool_decide_eq_true_2. eauto. Qed.

(** A run whose result is known. *)
Lemma run_with_result {A} (m : M A) (w : world) (r : result A) :
  fst (m w) = r -> m w = (r, snd (m w)).
Proof. intros <-. apply surjective_pairing. Qed.

(** For text that is not blank: the directories, the UUID counter and
    the request log after the call, and by outcome of the exchange the
    files, the result and the log. *)
Lemma get_audio_run E self txt w :
  strip txt <> [] ->
  let out := get_audio E self txt w in
  let w0 := prepared self txt w (path_join (data_path E) (py "temp")) in
  fs_dirs (snd out) = fs_dirs w0
  /\ uuid_drawn (snd out) = S (uuid_drawn w)
  /\ net_log (snd out) = net_log w ++ [synthesis_request self txt]
  /\ match session_post E (synthesis_request self txt) with
     | Reply r =>
         if (status r =? 200)%Z then
           fs_files (snd out) = <[audio_path_of E w := content r]> (fs_files w)
           /\ match content r with
              | [] =>
                  fst out = Raise (Exn RuntimeError
                                     (py "[Custom TTS] 未知错误: "
                                        ++ py "[Custom TTS] 生成的音频文件为空或不存在"))
                  /\ log (snd out)
                     = log w0
                       ++ [Line ERROR (py "[Custom TTS] 未知错误: "
                                         ++ py "[Custom TTS] 生成的音频文件为空或不存在")]
              | _ :: _ =>
                  fst out = Ok (audio_path_of E w)
                  /\ log (snd out)
                     = log w0
                       ++ [Line INFO (py "[Custom TTS] 音频生成成功: "
                                        ++ audio_path_of E w)]
              end
         else
           let m := py "[Custom TTS] API请求失败: " ++ str_of_int (status r)
                      ++ py " - " ++ text r in
           fs_files (snd out) = fs_files w
           /\ fst out = Raise (Exn RuntimeError (py "[Custom TTS] 未知错误: " ++ m))
           /\ log (snd out)
              = log w0
                ++ [Line ERROR (py "[Custom TTS] API请求失败，状态码: "
                                  ++ str_of_int (status r));
                    Line ERROR (py "[Custom TTS] 错误信息: " ++ text r);
                    Line ERROR (py "[Custom TTS] 未知错误: " ++ m)]
     | Failure e =>
         fs_files (snd out) = fs_files w
         /\ fst out
            = Raise (if isinstance_ClientError e then
                       Exn RuntimeError (py "[Custom TTS] 网络请求失败: " ++ exn_str e)
                     else if isinstance_TimeoutError e then
                       Exn RuntimeError (py "[Custom TTS] 请求超时")
                     else Exn RuntimeError (py "[Custom TTS] 未知错误: " ++ exn_str e))
         /\ log (snd out)
            = log w0
              ++ [Line ERROR
                    (if isinstance_ClientError e then
                       py "[Custom TTS] 网络请求失败: " ++ exn_str e
                     else if isinstance_TimeoutError e then
                       py "[Custom TTS] 请求超时 (超时时间: "
                         ++ str_of (timeout self) ++ py "秒)"
                     else py "[Custom TTS] 未知错误: " ++ exn_str e)]
     end.
Proof.
  intros Hne. cbv zeta.
  rewrite (get_audio_unfold E self txt w Hne).
  unfold synthesis_request.
  run_py. unfold prepared; world_fields.
  destruct (session_post E _) as [r|e].
  - destruct (status r =? 200)%Z; world_fields.
    + rewrite !lookup_insert_eq, bool_decide_is_Some. cbn [orb]. world_fields.
      rewrite lookup_insert_eq.
      change (default [] (Some (content r))) with (content r).
      destruct (content r) as [|b0 bs]; cbn [length].
      * change (0 <? Z.of_nat 0)%Z with false. world_fields.
        unfold isinstance_ClientError, isinstance_TimeoutError.
        cbn [exn_cls exn_str]. world_fields. repeat split.
      * replace (0 <? Z.of_nat (S (length bs)))%Z with true
          by (symmetry; apply Z.ltb_lt; lia).
        world_fields. repeat split.
    + unfold isinstance_ClientError, isinstance_TimeoutError.
      cbn [exn_cls exn_str]. world_fields. repeat split.
      now rewrite <- !app_assoc.
  - destruct (isinstance_ClientError e); [world_fields; repeat split|].
    destruct (isinstance_TimeoutError e); world_fields; repeat split.
Qed.

Lemma get_audio_run_ok E self txt w r :
  strip txt <> [] ->
  session_post E (synthesis_request self txt) = Reply r ->
  status r = 200%Z ->
  content r <> [] ->
  fst (get_audio E self txt w) = Ok (audio_path_of E w)
  /\ fs_files (snd (get_audio E self txt w))
     = <[audio_path_of E w := content r]> (fs_files w)
  /\ uuid_drawn (snd (get_audio E self txt w)) = S (uuid_drawn w)
  /\ net_log (snd (get_audio E self txt w)) = net_log w ++ [synthesis_request self txt].
Proof.
  intros Hne Hpost H200 Hbody.
  destruct (get_audio_run E self txt w Hne) as (_ & Hu & Hnet & Hcase).
  rewrite Hpost, H200 in Hcase. cbn [Z.eqb Pos.eqb] in Hcase.
  destruct Hcase as (Hfiles & Hc).
  destruct (content r); [congruence|]. destruct Hc as (Hres & _). auto.
Qed.

(** The sample text is not blank. *)
Lemma hi_not_blank : strip (py "hi") <> [].
Proof. discriminate. Qed.

(** ** What [get_audio] sends *)



(** ** When [get_audio] returns *)

(** X2. [get_audio] returns a path only when the text is not blank and
    the exchange was answered with status 200 and a body that is not
    empty; the path is the destination computed for this call and the
    file there holds the body. *)
Theorem get_audio_ok_only_if E self txt w path w' :
  get_audio E self txt w = (Ok path, w') ->
  strip txt <> []
  /\ path = audio_path_of E w
  /\ exists r,
       session_post E (synthesis_request self txt) = Reply r
       /\ status r = 200%Z
       /\ content r <> []
       /\ fs_files w' !! path = Some (content r).
Proof.
  intros Hrun.
  assert (Hne : strip txt <> []).
  { intros Hs. unfold get_audio in Hrun. rewrite Hs in Hrun. discriminate. }
  split; [exact Hne|].
  destruct (get_audio_run E self txt w Hne) as (_ & _ & _ & Hcase).
  rewrite Hrun in Hcase. cbn [fst snd] in Hcase.
  destruct (session_post E _) as [r|e].
  - destruct (status r =? 200)%Z eqn:Hst.
    + destruct Hcase as (Hfiles & Hc).
      destruct (content r) as [|b0 bs] eqn:Hcontent.
      * destruct Hc as [Hc _]. discriminate.
      * destruct Hc as [[= ->] _]. split; [reflexivity|].
        exists r. split; [reflexivity|]. split; [now apply Z.eqb_eq|].
        rewrite Hcontent. split; [discriminate|].
        rewrite Hfiles. apply lookup_insert_eq.
    + destruct Hcase as (_ & Hc & _). discriminate.
  - destruct Hcase as (_ & Hc & _). discriminate.
Qed.

Lemma get_audio_ok_only_if_witness :
  strip (py "hi") <> []
  /\ audio_path_of (env_with (Reply reply_wav)) empty_world
     = audio_path_of (env_with (Reply reply_wav)) empty_world
  /\ exists r,
       session_post (env_with (Reply reply_wav)) (synthesis_request sample_self (py "hi"))
       = Reply r
       /\ status r = 200%Z
       /\ content r <> []
       /\ fs_files (snd (get_audio (env_with (Reply reply_wav)) sample_self (py "hi")
                           empty_world))
          !! audio_path_of (env_with (Reply reply_wav)) empty_world
          = Some (content r).
Proof.
  apply (get_audio_ok_only_if (env_with (Reply reply_wav)) sample_self (py "hi")
           empty_world).
  apply run_with_result.
  apply (get_audio_run_ok (env_with (Reply reply_wav)) sample_self (py "hi")
           empty_world reply_wav hi_not_blank eq_refl eq_refl).
  discriminate.
Defined.

(** ** What [get_audio] raises *)



(** ** What [get_audio] does to the file system *)



(** X5. When the exchange is not answered with status 200 (another
    status, or an exception), no file is written; the temporary
    directory has been made and one UUID drawn all the same, both
    happening before the request. *)
Theorem get_audio_no_file_unless_200 E self txt w :
  strip txt <> [] ->
  (forall r, session_post E (synthesis_request self txt) = Reply r -> status r <> 200%Z) ->
  let w' := snd (get_audio E self txt w) in
  fs_files w' = fs_files w
  /\ path_join (data_path E) (py "temp") ∈ fs_dirs w'
  /\ uuid_drawn w' = S (uuid_drawn w).
Proof.
  intros Hne Hno. cbv zeta.
  destruct (get_audio_run E self txt w Hne) as (Hd & Hu & _ & Hcase).
  split; [|split; [rewrite Hd; apply elem_of_union_l, elem_of_singleton_2; reflexivity
                  | exact Hu]].
  destruct (session_post E _) as [r|x].
  - destruct (status r =? 200)%Z eqn:Hst.
    + apply Z.eqb_eq in Hst. now destruct (Hno r eq_refl).
    + now destruct Hcase.
  - now destruct Hcase.
Qed.

Lemma get_audio_no_file_unless_200_witness :
  let w' := snd (get_audio (env_with (Reply reply_404)) sample_self (py "hi")
                   empty_world) in
  fs_files w' = fs_files empty_world
  /\ path_join (data_path (env_with (Reply reply_404))) (py "temp") ∈ fs_dirs w'
  /\ uuid_drawn w' = S (uuid_drawn empty_world).
Proof.
  apply (get_audio_no_file_unless_200 (env_with (Reply reply_404)) sample_self (py "hi")
           empty_world hi_not_blank).
  intros r [= <-]. discriminate.
Defined.

(** ** File names *)

Lemma hex_digits_S (k : nat) (u : N) (acc : pystr) :
  hex_digits (S k) u acc = hex_digits k (u / 16) (hex_digit (u mod 16) :: acc).
Proof. reflexivity. Qed.

Lemma hex_digits_app (n : nat) (u : N) (acc : pystr) :
  hex_digits n u acc = hex_digits n u [] ++ acc.
Proof.
  revert u acc. induction n as [|k IH]; intros u acc; [reflexivity|].
  rewrite !hex_digits_S, (IH _ (_ :: acc)), (IH _ [_]).
  now rewrite <- app_assoc.
Qed.

Lemma hex_digits_length (n : nat) (u : N) : length (hex_digits n u []) = n.
Proof.
  revert u. induction n as [|k IH]; intros u; [reflexivity|].
  rewrite hex_digits_S, hex_digits_app, length_app, IH. cbn [length]. lia.
Qed.

Lemma hex_digit_is_hex (d : N) : d < 16 -> is_hex_char (hex_digit d) = true.
Proof.
  intros Hd. unfold is_hex_char, hex_digit.
  destruct (d <? 10) eqn:H10.
  - apply N.ltb_lt in H10. apply orb_true_iff; left.
    apply andb_true_iff; split; apply N.leb_le; lia.
  - apply N.ltb_ge in H10. apply orb_true_iff; right.
    apply andb_true_iff; split; apply N.leb_le; lia.
Qed.

Lemma hex_digit_inj (a b : N) : a < 16 -> b < 16 -> hex_digit a = hex_digit b -> a = b.
Proof.
  unfold hex_digit. intros Ha Hb.
  destruct (a <? 10) eqn:Ea, (b <? 10) eqn:Eb;
    try apply N.ltb_lt in Ea; try apply N.ltb_lt in Eb;
    try apply N.ltb_ge in Ea; try apply N.ltb_ge in Eb; lia.
Qed.

Lemma hex_digits_all_hex (n : nat) (u : N) :
  Forall (fun c => is_hex_char c = true) (hex_digits n u []).
Proof.
  revert u. induction n as [|k IH]; intros u; [constructor|].
  rewrite hex_digits_S, hex_digits_app. apply Forall_app. split; [apply IH|].
  constructor; [|constructor]. apply hex_digit_is_hex.
  apply N.mod_lt. discriminate.
Qed.

(** The [n] digits determine the value modulo [16 ^ n]. *)
Lemma hex_digits_inj (n : nat) (u v : N) :
  hex_digits n u [] = hex_digits n v [] -> u mod 16 ^ N.of_nat n = v mod 16 ^ N.of_nat n.
Proof.
  revert u v. induction n as [|k IH]; intros u v H.
  - cbn. now rewrite !N.mod_1_r.
  - rewrite !hex_digits_S, (hex_digits_app k (u / 16)), (hex_digits_app k (v / 16)) in H.
    apply app_inj_1 in H as [Hhi Hlo]; [|now rewrite !hex_digits_length].
    apply IH in Hhi. injection Hlo as Hlo.
    apply hex_digit_inj in Hlo; try (apply N.mod_lt; discriminate).
    rewrite Nat2N.inj_succ, N.pow_succ_r'.
    rewrite !N.Div0.mod_mul_r. now rewrite Hhi, Hlo.
Qed.

Lemma path_join_relative (a b : pystr) :
  startswith b (py "/") = false ->
  path_join a b
  = a ++ (if bool_decide (a = []) || endswith a 0x2F then [] else py "/") ++ b.
Proof.
  intros Hb. unfold path_join. rewrite Hb.
  now destruct (bool_decide (a = []) || endswith a 0x2F).
Qed.

Lemma temp_dir_shape (d : pystr) :
  path_join d (py "temp")
  = d ++ (if bool_decide (d = []) || endswith d 0x2F then [] else py "/") ++ py "temp".
Proof. now apply path_join_relative. Qed.

(** The temporary directory is never the empty path and never ends in a
    slash, so [os.path.join] always puts one before the file name. *)
Lemma temp_dir_no_slash (d : pystr) :
  bool_decide (path_join d (py "temp") = []) || endswith (path_join d (py "temp")) 0x2F
  = false.
Proof.
  rewrite temp_dir_shape.
  generalize (if bool_decide (d = []) || endswith d 0x2F then [] else py "/").
  intros sep. apply orb_false_iff. split.
  - apply bool_decide_eq_false_2. intros H.
    apply (f_equal (@length N)) in H. rewrite !length_app in H. cbn in H. lia.
  - change (py "temp") with (py "tem" ++ [0x70]).
    rewrite !app_assoc. unfold endswith. now rewrite last_snoc.
Qed.

Lemma audio_path_closed_form E w :
  audio_path_of E w
  = path_join (data_path E) (py "temp")
      ++ py "/custom_tts_" ++ hex_digits 32 (uuid4 E (uuid_drawn w)) [] ++ py ".wav".
Proof.
  unfold audio_path_of.
  rewrite path_join_relative by reflexivity.
  now rewrite temp_dir_no_slash.
Qed.

Lemma audio_path_inj E w1 w2 :
  audio_path_of E w1 = audio_path_of E w2 ->
  uuid4 E (uuid_drawn w1) mod 2 ^ 128 = uuid4 E (uuid_drawn w2) mod 2 ^ 128.
Proof.
  intros Hp. rewrite !audio_path_closed_form in Hp.
  apply app_inv_head in Hp. apply app_inv_head in Hp. apply app_inv_tail in Hp.
  apply hex_digits_inj in Hp. exact Hp.
Qed.

(** X6. The destination is always
    [<data path><sep>temp/custom_tts_<hex>.wav], where [sep] is empty or
    one slash and [hex] is 32 characters out of [0-9a-f]: the file name
    holds no slash, so the file lies directly in the temporary
    directory under the data path. *)
Theorem audio_path_shape E w :
  exists sep hex,
    audio_path_of E w
    = data_path E ++ sep ++ py "temp/custom_tts_" ++ hex ++ py ".wav"
    /\ (sep = [] \/ sep = py "/")
    /\ length hex = 32%nat
    /\ Forall (fun c => is_hex_char c = true) hex.
Proof.
  exists (if bool_decide (data_path E = []) || endswith (data_path E) 0x2F
          then [] else py "/"),
         (hex_digits 32 (uuid4 E (uuid_drawn w)) []).
  split; [|split; [|split]].
  - rewrite audio_path_closed_form, temp_dir_shape.
    now rewrite <- !app_assoc.
  - destruct (_ || _); auto.
  - apply hex_digits_length.
  - apply hex_digits_all_hex.
Qed.

(** X7. Two UUIDs that differ as 128-bit values give two different
    destinations. *)
Theorem audio_path_distinct E w1 w2 :
  uuid4 E (uuid_drawn w1) mod 2 ^ 128 <> uuid4 E (uuid_drawn w2) mod 2 ^ 128 ->
  audio_path_of E w1 <> audio_path_of E w2.
Proof.
  intros Hu Hp. apply Hu. now apply audio_path_inj.
Qed.

Lemma audio_path_distinct_witness :
  audio_path_of (env_with (Reply reply_wav)) empty_world
  <> audio_path_of (env_with (Reply reply_wav)) later_world.
Proof.
  apply (audio_path_distinct (env_with (Reply reply_wav)) empty_world later_world).
  discriminate.
Defined.

(** ** Calls in sequence *)

(** X8. Two successful calls in a row, their UUIDs different as 128-bit
    values: each returns its own path, the second call leaves the file
    of the first in place, both files hold their response bodies, and
    the two requests were sent in order. *)
Theorem get_audio_twice E self t1 t2 w r1 r2 :
  strip t1 <> [] ->
  strip t2 <> [] ->
  session_post E (synthesis_request self t1) = Reply r1 ->
  session_post E (synthesis_request self t2) = Reply r2 ->
  status r1 = 200%Z /\ content r1 <> [] ->
  status r2 = 200%Z /\ content r2 <> [] ->
  uuid4 E (uuid_drawn w) mod 2 ^ 128 <> uuid4 E (S (uuid_drawn w)) mod 2 ^ 128 ->
  let w1 := snd (get_audio E self t1 w) in
  let w2 := snd (get_audio E self t2 w1) in
  exists p1 p2,
    fst (get_audio E self t1 w) = Ok p1
    /\ fst (get_audio E self t2 w1) = Ok p2
    /\ p1 <> p2
    /\ fs_files w2 !! p1 = Some (content r1)
    /\ fs_files w2 !! p2 = Some (content r2)
    /\ net_log w2
       = net_log w ++ [synthesis_request self t1; synthesis_request self t2].
Proof.
  intros Hn1 Hn2 Hp1 Hp2 [Hs1 Hb1] [Hs2 Hb2] Hu. cbv zeta.
  destruct (get_audio_run_ok E self t1 w r1 Hn1 Hp1 Hs1 Hb1)
    as (Hres1 & Hf1 & Hu1 & Hnet1).
  destruct (get_audio_run_ok E self t2 (snd (get_audio E self t1 w)) r2 Hn2 Hp2 Hs2 Hb2)
    as (Hres2 & Hf2 & _ & Hnet2).
  assert (Hne : audio_path_of E w <> audio_path_of E (snd (get_audio E self t1 w))).
  { intros Hp. apply audio_path_inj in Hp. rewrite Hu1 in Hp. contradiction. }
  exists (audio_path_of E w), (audio_path_of E (snd (get_audio E self t1 w))).
  split; [exact Hres1|]. split; [exact Hres2|]. split; [exact Hne|].
  rewrite Hf2, Hf1, Hnet2, Hnet1. split; [|split].
  - rewrite lookup_insert_ne by congruence. apply lookup_insert_eq.
  - apply lookup_insert_eq.
  - now rewrite <- app_assoc.
Qed.

Lemma get_audio_twice_witness :
  let E := env_with (Reply reply_wav) in
  let w1 := snd (get_audio E sample_self (py "hi") empty_world) in
  let w2 := snd (get_audio E sample_self (py "yo") w1) in
  exists p1 p2,
    fst (get_audio E sample_self (py "hi") empty_world) = Ok p1
    /\ fst (get_audio E sample_self (py "yo") w1) = Ok p2
    /\ p1 <> p2
    /\ fs_files w2 !! p1 = Some (content reply_wav)
    /\ fs_files w2 !! p2 = Some (content reply_wav)
    /\ net_log w2
       = net_log empty_world
         ++ [synthesis_request sample_self (py "hi");
             synthesis_request sample_self (py "yo")].
Proof.
  apply (get_audio_twice (env_with (Reply reply_wav)) sample_self (py "hi") (py "yo")
           empty_world reply_wav reply_wav hi_not_blank).
  - discriminate.
  - reflexivity.
  - reflexivity.
  - split; [reflexivity|discriminate].
  - split; [reflexivity|discriminate].
  - discriminate.
Defined.

(** The world matters to the result only through the UUID it makes
    [uuid4] draw. *)
Lemma get_audio_result_uuid E self txt w1 w2 :
  uuid_drawn w1 = uuid_drawn w2 ->
  fst (get_audio E self txt w1) = fst (get_audio E self txt w2).
Proof.
  intros Hu.
  destruct (strip txt) as [|c t] eqn:Hs.
  - apply strip_nil_blank in Hs. now rewrite !(get_audio_blank E self txt _ Hs).
  - assert (Hne : strip txt <> []) by (rewrite Hs; discriminate).
    assert (Hp : audio_path_of E w1 = audio_path_of E w2)
      by (unfold audio_path_of; now rewrite Hu).
    destruct (get_audio_run E self txt w1 Hne) as (_ & _ & _ & H1).
    destruct (get_audio_run E self txt w2 Hne) as (_ & _ & _ & H2).
    rewrite Hp in H1.
    destruct (session_post E _) as [r|x].
    + destruct (status r =? 200)%Z.
      * destruct H1 as (_ & H1), H2 as (_ & H2).
        destruct (content r); destruct H1 as [-> _], H2 as [-> _]; reflexivity.
      * destruct H1 as (_ & -> & _), H2 as (_ & -> & _). reflexivity.
    + destruct H1 as (_ & -> & _), H2 as (_ & -> & _). reflexivity.
Qed.

(** ** The probe, in full *)

(** X9. [test_connection] touches no directory and no file and draws no
    UUID.  It sends exactly one request, to the same endpoint and with
    the same headers as [get_audio], but with a total timeout of 10 and
    a body with the fixed text and speed 1.0, whatever timeout and speed
    are configured.  It logs one warning when the exchange raised, and
    nothing otherwise. *)
Theorem test_connection_effects E self w :
  let w' := snd (test_connection E self w) in
  fs_dirs w' = fs_dirs w
  /\ fs_files w' = fs_files w
  /\ uuid_drawn w' = uuid_drawn w
  /\ (exists rq,
        net_log w' = net_log w ++ [rq]
        /\ req_url rq = api_base self ++ py "/get_role_music"
        /\ req_json rq = [(py "role", role self); (py "emotion", emotion self);
                          (py "content", PStr (py "测试"));
                          (py "speed", PFloat (py "1.0"))]
        /\ req_headers rq = headers self
        /\ req_timeout rq = PInt 10)
  /\ log w'
     = log w ++ match session_post E (probe_request self) with
                | Reply _ => []
                | Failure e =>
                    [Line WARNING (py "[Custom TTS] 连接测试失败: " ++ exn_str e)]
                end.
Proof.
  cbv zeta. unfold test_connection, probe_request. run_py.
  destruct (session_post E _) as [r|e]; world_fields.
  - repeat split; [|now rewrite app_nil_r].
    eexists; split; [reflexivity|]. repeat split.
  - repeat split. eexists; split; [reflexivity|]. repeat split.
Qed.

Lemma test_connection_frame E self w :
  fs_files (snd (test_connection E self w)) = fs_files w
  /\ uuid_drawn (snd (test_connection E self w)) = uuid_drawn w.
Proof.
  unfold test_connection. run_py.
  destruct (session_post E _); world_fields; split; reflexivity.
Qed.

(** X10. Probing first changes nothing for the synthesis that follows:
    [get_audio] returns or raises the same, leaves the same files, and
    the request log holds the probe and then the synthesis request. *)
Theorem probe_then_synthesis E self txt w :
  strip txt <> [] ->
  let w1 := snd (test_connection E self w) in
  fst (get_audio E self txt w1) = fst (get_audio E self txt w)
  /\ net_log (snd (get_audio E self txt w1))
     = net_log w ++ [probe_request self; synthesis_request self txt]
  /\ fs_files (snd (get_audio E self txt w1)) = fs_files (snd (get_audio E self txt w)).
Proof.
  intros Hne. cbv zeta.
  destruct (test_connection_frame E self w) as (Hf & Hu).
  split; [|split].
  - now apply get_audio_result_uuid.
  - rewrite get_audio_net_log by exact Hne.
    rewrite test_connection_net_log. now rewrite <- app_assoc.
  - assert (Hp : audio_path_of E (snd (test_connection E self w)) = audio_path_of E w)
      by (unfold audio_path_of; now rewrite Hu).
    destruct (get_audio_run E self txt w Hne) as (_ & _ & _ & H1).
    destruct (get_audio_run E self txt (snd (test_connection E self w)) Hne)
      as (_ & _ & _ & H2).
    rewrite Hp, Hf in H2.
    destruct (session_post E _) as [r|x].
    + destruct (status r =? 200)%Z.
      * destruct H1 as (-> & _), H2 as (-> & _). reflexivity.
      * destruct H1 as (-> & _), H2 as (-> & _). reflexivity.
    + destruct H1 as (-> & _), H2 as (-> & _). reflexivity.
Qed.

Lemma probe_then_synthesis_witness :
  let E := env_with (Reply reply_wav) in
  let w1 := snd (test_connection E sample_self empty_world) in
  fst (get_audio E sample_self (py "hi") w1)
  = fst (get_audio E sample_self (py "hi") empty_world)
  /\ net_log (snd (get_audio E sample_self (py "hi") w1))
     = net_log empty_world
       ++ [probe_request sample_self; synthesis_request sample_self (py "hi")]
  /\ fs_files (snd (get_audio E sample_self (py "hi") w1))
     = fs_files (snd (get_audio E sample_self (py "hi") empty_world)).
Proof.
  exact (probe_then_synthesis (env_with (Reply reply_wav)) sample_self (py "hi")
           empty_world hi_not_blank).
Defined.

(** ** Handlers and the log *)

(** X11. The [except] clauses are tried in source order.  An exception
    of the exchange that is an [aiohttp.ClientError] is reported as a
    network failure with its description, also when it is a timeout
    error as well ([ServerTimeoutError]); one that is only a timeout is
    reported with the timeout message; any other one is reported as an
    unknown error with its description. *)
Theorem get_audio_handler_order E self txt w e :
  strip txt <> [] ->
  session_post E (synthesis_request self txt) = Failure e ->
  exists x,
    fst (get_audio E self txt w) = Raise x
    /\ (isinstance_ClientError e = true ->
        kind_of x = Some NetworkFailure
        /\ exn_str x = py "[Custom TTS] 网络请求失败: " ++ exn_str e)
    /\ (isinstance_ClientError e = false -> isinstance_TimeoutError e = true ->
        kind_of x = Some Timeout /\ exn_str x = py "[Custom TTS] 请求超时")
    /\ (isinstance_ClientError e = false -> isinstance_TimeoutError e = false ->
        kind_of x = Some UnknownFailure
        /\ exn_str x = py "[Custom TTS] 未知错误: " ++ exn_str e).
Proof.
  intros Hne Hpost.
  destruct (get_audio_run E self txt w Hne) as (_ & _ & _ & Hcase).
  rewrite Hpost in Hcase. destruct Hcase as (_ & Hres & _).
  eexists. split; [exact Hres|].
  destruct (isinstance_ClientError e), (isinstance_TimeoutError e);
    repeat split; intros; try discriminate;
    first [apply kind_of_network | apply kind_of_timeout | apply kind_of_unknown
          | reflexivity].
Qed.

Lemma get_audio_handler_order_witness :
  exists x,
    fst (get_audio (env_with (Failure server_timeout_exn)) sample_self (py "hi")
           empty_world) = Raise x
    /\ (isinstance_ClientError server_timeout_exn = true ->
        kind_of x = Some NetworkFailure
        /\ exn_str x = py "[Custom TTS] 网络请求失败: " ++ exn_str server_timeout_exn)
    /\ (isinstance_ClientError server_timeout_exn = false ->
        isinstance_TimeoutError server_timeout_exn = true ->
        kind_of x = Some Timeout /\ exn_str x = py "[Custom TTS] 请求超时")
    /\ (isinstance_ClientError server_timeout_exn = false ->
        isinstance_TimeoutError server_timeout_exn = false ->
        kind_of x = Some UnknownFailure
        /\ exn_str x = py "[Custom TTS] 未知错误: " ++ exn_str server_timeout_exn).
Proof.
  exact (get_audio_handler_order (env_with (Failure server_timeout_exn)) sample_self
           (py "hi") empty_world server_timeout_exn hi_not_blank eq_refl).
Defined.



(** ** Construction, in full *)

Lemma init_fields cfg self :
  init cfg = Ok self ->
  timeout self = dict_get cfg (py "timeout") (PInt 30)
  /\ role self = dict_get cfg (py "role") (PStr (py "缪尔赛斯"))
  /\ emotion self = dict_get cfg (py "emotion") (PStr (py "平常"))
  /\ speed self = dict_get cfg (py "speed") (PFloat (py "1.0"))
  /\ model_name self = dict_get cfg (py "model") (PStr (py "custom_tts")).
Proof.
  unfold init. intros H.
  destruct (dict_get cfg (py "api_base") _) as [| | | |base]; try discriminate.
  injection H as <-. repeat split.
Qed.

(** X13. Construction fails in one case only: [api_base] is configured
    with a value that is not a string, and then with the
    [AttributeError] of the missing [endswith].  No other entry, present
    or absent, of whatever type, makes it fail. *)
Theorem init_outcome cfg :
  match init cfg with
  | Ok self =>
      cfg !! py "api_base" = None \/ exists s, cfg !! py "api_base" = Some (PStr s)
  | Raise e =>
      exn_cls e = AttributeError
      /\ exists v,
           cfg !! py "api_base" = Some v
           /\ (forall s, v <> PStr s)
           /\ exn_str e = py "'" ++ type_name v ++ py "' object has no attribute 'endswith'"
  end.
Proof.
  unfold init, dict_get.
  destruct (cfg !! py "api_base") as [v|]; [|left; reflexivity].
  destruct v; cbn [default from_option id];
    try (split; [reflexivity|]; eexists; split; [reflexivity|];
         split; [discriminate|reflexivity]).
  right. eauto.
Qed.

(** X14. The configured [role], [emotion], [speed] and [timeout] reach
    the synthesis request as they are, of whatever type and range (no
    check confines [speed] to 0.1-3.0); a missing key gives the default
    of the constructor. *)
Theorem configured_values_reach_request cfg self E txt w :
  init cfg = Ok self ->
  strip txt <> [] ->
  exists rq,
    net_log (snd (get_audio E self txt w)) = net_log w ++ [rq]
    /\ req_json rq
       = [(py "role", dict_get cfg (py "role") (PStr (py "缪尔赛斯")));
          (py "emotion", dict_get cfg (py "emotion") (PStr (py "平常")));
          (py "content", PStr txt);
          (py "speed", dict_get cfg (py "speed") (PFloat (py "1.0")))]
    /\ req_timeout rq = dict_get cfg (py "timeout") (PInt 30).
Proof.
  intros Hinit Hne.
  destruct (init_fields cfg self Hinit) as (Ht & Hr & He & Hs & _).
  exists (synthesis_request self txt).
  split; [now apply get_audio_net_log|].
  unfold synthesis_request, request_data_of. cbn [req_json req_timeout].
  now rewrite Ht, Hr, He, Hs.
Qed.

Lemma configured_values_reach_request_witness :
  exists rq,
    net_log (snd (get_audio (env_with (Reply reply_wav)) fast_self (py "hi") empty_world))
    = net_log empty_world ++ [rq]
    /\ req_json rq
       = [(py "role", dict_get fast_config (py "role") (PStr (py "缪尔赛斯")));
          (py "emotion", dict_get fast_config (py "emotion") (PStr (py "平常")));
          (py "content", PStr (py "hi"));
          (py "speed", dict_get fast_config (py "speed") (PFloat (py "1.0")))]
    /\ req_timeout rq = dict_get fast_config (py "timeout") (PInt 30).
Proof.
  apply (configured_values_reach_request fast_config fast_self
           (env_with (Reply reply_wav)) (py "hi") empty_world).
  - vm_compute. reflexivity.
  - exact hi_not_blank.
Defined.

Example fast_speed_is_sent :
  dict_get fast_config (py "speed") (PFloat (py "1.0")) = PFloat (py "9.5").
Proof. vm_compute. reflexivity. Qed.

(** X15. With a configured [api_key] string that is not empty, the
    header [Authorization: Bearer <api_key>] goes out with every request
    the adapter sends: the synthesis request and the probe alike. *)
Theorem bearer_on_every_request cfg self key :
  init cfg = Ok self ->
  cfg !! py "api_key" = Some (PStr key) ->
  key <> [] ->
  (forall E txt w,
     strip txt <> [] ->
     exists rq,
       net_log (snd (get_audio E self txt w)) = net_log w ++ [rq]
       /\ req_headers rq !! py "Authorization" = Some (py "Bearer " ++ key))
  /\ (forall E w,
        exists rq,
          net_log (snd (test_connection E self w)) = net_log w ++ [rq]
          /\ req_headers rq !! py "Authorization" = Some (py "Bearer " ++ key)).
Proof.
  intros Hinit Hcfg Hkey.
  assert (Hauth : headers self !! py "Authorization" = Some (py "Bearer " ++ key)).
  { rewrite (init_authorization cfg self Hinit).
    destruct (init_inv cfg self Hinit) as (_ & _ & _ & -> & _).
    unfold dict_get. rewrite Hcfg. cbn [default from_option id truthy str_of].
    now rewrite bool_decide_eq_false_2. }
  split.
  - intros E txt w Hne. exists (synthesis_request self txt).
    split; [now apply get_audio_net_log | exact Hauth].
  - intros E w. exists (probe_request self).
    split; [apply test_connection_net_log | exact Hauth].
Qed.

Lemma bearer_on_every_request_witness :
  (forall E txt w,
     strip txt <> [] ->
     exists rq,
       net_log (snd (get_audio E sample_self txt w)) = net_log w ++ [rq]
       /\ req_headers rq !! py "Authorization" = Some (py "Bearer " ++ py "k3y"))
  /\ (forall E w,
        exists rq,
          net_log (snd (test_connection E sample_self w)) = net_log w ++ [rq]
          /\ req_headers rq !! py "Authorization" = Some (py "Bearer " ++ py "k3y")).
Proof.
  apply (bearer_on_every_request sample_config sample_self (py "k3y")).
  - vm_compute. reflexivity.
  - vm_compute. reflexivity.
  - discriminate.
Defined.

(** X16. After construction the header map has no entry beyond
    [Content-Type], [User-Agent] and, exactly when the stored [api_key]
    is true in Python's sense, [Authorization]. *)
Theorem init_header_names cfg self name :
  init cfg = Ok self ->
  is_Some (headers self !! name) <->
  name = py "Content-Type" \/ name = py "User-Agent"
  \/ (name = py "Authorization" /\ truthy (api_key self) = true).
Proof.
  intros Hinit.
  destruct (init_inv cfg self Hinit) as (_ & _ & _ & _ & ->).
  destruct (truthy (api_key self)).
  - rewrite !lookup_insert_is_Some, lookup_empty. split.
    + intros [<-|[_ [<-|[_ [<-|[_ [x Hx]]]]]]]; auto. discriminate.
    + intros [->|[->|[-> _]]].
      * right. split; [discriminate|]. right. split; [discriminate|]. now left.
      * right. split; [discriminate|]. now left.
      * now left.
  - rewrite !lookup_insert_is_Some, lookup_empty. split.
    + intros [<-|[_ [<-|[_ [x Hx]]]]]; auto. discriminate.
    + intros [->|[->|[_ Hf]]]; [| |discriminate].
      * right. split; [discriminate|]. now left.
      * now left.
Qed.

Lemma init_header_names_witness :
  is_Some (headers sample_self !! py "Authorization") <->
  py "Authorization" = py "Content-Type" \/ py "Authorization" = py "User-Agent"
  \/ (py "Authorization" = py "Authorization" /\ truthy (api_key sample_self) = true).
Proof.
  apply (init_header_names sample_config sample_self (py "Authorization")).
  vm_compute. reflexivity.
Defined.
